(** * FLOPs estimation for Keras feed-forward models

    A shallow embedding of the function [flops] of the notebook
    "Flops Intro.ipynb" and the properties of its total and of the trace it
    prints.

    The Python function walks [model.layers] with [enumerate], prints a few
    lines per layer and accumulates [total_flops]; it finally prints and
    returns the total.  Here the printed text is kept as a list of typed
    lines (one constructor per [print] statement of the source, rendered to
    the exact text by [render_line]), standard output is threaded as explicit
    state, and a Python exception is an explicit outcome. *)

From Stdlib Require Import ZArith List String Ascii Lia Bool.
From Stdlib Require Import DecimalString DecimalPos DecimalZ Permutation.
Import ListNotations.

Local Open Scope Z_scope.

(** ** Layers, as far as [flops] looks at them *)

(** [layer.activation], compared by the source with
    [tf.keras.activations.relu] and [tf.keras.activations.softmax]. *)
Inductive activation : Type :=
| ActNone
| ReLU
| Softmax
| ActOther (name : string).

(** A layer object.  [flops] dispatches with [isinstance] on [Flatten] and
    [Dense]; of a [Dense] layer it reads [layer.input_shape[-1]],
    [layer.units] and [layer.activation].  Python integers are unbounded and
    signed, hence [Z].  An [input_units] of [None] is a layer without a
    defined input shape (a layer that was never built), on which reading
    [layer.input_shape] fails.  A [units] of [None] is the attribute holding
    [None]; the constructor of [Dense] gives every layer an integer there
    that is not negative, so only a later assignment to [layer.units] can
    leave [None] or a negative number in it. *)
Inductive layer : Type :=
| Flatten (input_shape : list Z)
| Dense (input_units : option Z) (units : option Z) (act : activation)
| OtherLayer (class_name : string).

Record model : Type := Sequential { layers : list layer }.

(** ** Standard output *)

(** One constructor per [print] call of the source, carrying the values the
    f-string interpolates. *)
Inductive line : Type :=
| LFlatten (i : nat)
| LDense (i : nat)
| LUnits (input_units output_units flops : Z)
| LReLU (output_units : Z)
| LSoftmax (n : Z)
| LTotal (total_flops : Z).

Definition stdout : Type := list line.

(** ** Exceptions and the monad of the function body *)

(** The two exceptions the body of [flops] can end with: [layer.input_shape]
    raises [AttributeError] on a layer without a defined input shape, and
    arithmetic on [None] raises [TypeError]. *)
Inductive exn : Type :=
| AttributeError
| TypeError.

Inductive result (A : Type) : Type :=
| Ok (a : A)
| Raise (e : exn).
Arguments Ok {A} a.
Arguments Raise {A} e.

(** A computation receives what has been printed so far and gives back what
    has been printed after it, with a value or the exception that ended it.
    Lines printed before an exception stay printed. *)
Definition M (A : Type) : Type := stdout -> stdout * result A.

Definition ret {A : Type} (a : A) : M A := fun w => (w, Ok a).

Definition bind {A B : Type} (m : M A) (f : A -> M B) : M B :=
  fun w =>
    match m w with
    | (w', Ok a) => f a w'
    | (w', Raise e) => (w', Raise e)
    end.

Definition print (l : line) : M unit := fun w => (w ++ [l], Ok tt).

Definition raise {A : Type} (e : exn) : M A := fun w => (w, Raise e).

Declare Scope flops_scope.
Delimit Scope flops_scope with flops.
Notation "x <- c1 ;; c2" := (bind c1 (fun x => c2))
  (at level 100, c1 at next level, right associativity) : flops_scope.
Notation "c1 ;; c2" := (bind c1 (fun _ => c2))
  (at level 100, right associativity) : flops_scope.
Local Open Scope flops_scope.

(** [layer.input_shape[-1]]. *)
Definition input_shape_last (v : option Z) : M Z :=
  match v with
  | Some z => ret z
  | None => raise AttributeError
  end.

(** An operand of [*] or [+] that has to be an integer. *)
Definition as_int (v : option Z) : M Z :=
  match v with
  | Some z => ret z
  | None => raise TypeError
  end.

(** ** The function [flops] *)

(** The [Dense] branch up to (not including) [total_flops += flops]: the
    final value of the local variable [flops].  After the header line is
    printed, [input_units = layer.input_shape[-1]] is where a layer without
    input shape raises; [output_units = layer.units] only copies the
    attribute, and the product [2 * input_units * output_units], evaluated
    before the line that shows it, is where a [units] of [None] raises. *)
Definition dense_flops (i : nat) (input_units output_units : option Z)
    (act : activation) : M Z :=
  print (LDense i) ;;
  a <- input_shape_last input_units ;;
  b <- as_int output_units ;;
  let flops := 2 * a * b in
  print (LUnits a b flops) ;;
  match act with
  | ReLU =>
      let flops := flops + b in
      print (LReLU b) ;;
      ret flops
  | Softmax =>
      let flops := flops + 5 * b in
      print (LSoftmax (5 * b)) ;;
      ret flops
  | _ => ret flops
  end.

(** One iteration of the [for] loop: the new value of [total_flops]. *)
Definition flops_body (i : nat) (l : layer) (total_flops : Z) : M Z :=
  match l with
  | Flatten _ =>
      print (LFlatten i) ;;
      ret total_flops
  | Dense input_units output_units act =>
      flops <- dense_flops i input_units output_units act ;;
      ret (total_flops + flops)
  | OtherLayer _ => ret total_flops
  end.

(** [for i, layer in enumerate(model.layers)], from index [i] on. *)
Fixpoint flops_loop (i : nat) (ls : list layer) (total_flops : Z) : M Z :=
  match ls with
  | [] => ret total_flops
  | l :: rest =>
      total_flops <- flops_body i l total_flops ;;
      flops_loop (S i) rest total_flops
  end.

Definition flops (m : model) : M Z :=
  total_flops <- flops_loop 0 (layers m) 0 ;;
  print (LTotal total_flops) ;;
  ret total_flops.

(** ** The text of a line *)

Definition nl : string := String (ascii_of_nat 10) EmptyString.

Definition str_nat (n : nat) : string := NilZero.string_of_uint (Nat.to_uint n).

Definition str_Z (z : Z) : string := NilZero.string_of_int (Z.to_int z).

(** Digits, least significant first, with a comma after every third one that
    has a successor. *)
Fixpoint commas_rev (ds : list ascii) : list ascii :=
  match ds with
  | a :: b :: c :: ((_ :: _) as rest) =>
      a :: b :: c :: ","%char :: commas_rev rest
  | _ => ds
  end.

(** The format [{total_flops:,}]. *)
Definition str_Z_commas (z : Z) : string :=
  let digits := list_ascii_of_string (str_Z (Z.abs z)) in
  let grouped := string_of_list_ascii (rev (commas_rev (rev digits))) in
  if z <? 0 then ("-" ++ grouped)%string else grouped.

Definition render_line (l : line) : string :=
  match l with
  | LFlatten i => "Layer " ++ str_nat i ++ ": Flatten — no FLOPs counted."
  | LDense i => "Layer " ++ str_nat i ++ ": Dense"
  | LUnits a b f =>
      "  input_units: " ++ str_Z a ++ ", output_units: " ++ str_Z b
      ++ ", flops: " ++ str_Z f
  | LReLU b => "  +ReLU activation FLOPs: " ++ str_Z b
  | LSoftmax n => "  +Softmax activation FLOPs (approx): " ++ str_Z n
  | LTotal t => nl ++ "Total estimated FLOPs: " ++ str_Z_commas t
  end%string.

(** What the terminal shows: every [print] ends its text with a newline. *)
Definition render (out : stdout) : string :=
  fold_right (fun l s => render_line l ++ nl ++ s)%string EmptyString out.

Definition scenario_A : model :=
  Sequential [ Flatten [28; 28];
               Dense (Some 784) (Some 100) ReLU;
               Dense (Some 100) (Some 100) ReLU;
               Dense (Some 100) (Some 10) Softmax ].

(** ** Reading the total and the trace *)

Definition add_result (t : Z) (r : result Z) : result Z :=
  match r with
  | Ok c => Ok (t + c)
  | Raise e => Raise e
  end.

(** What one layer adds to [total_flops], and what it prints as layer [i]:
    the loop body run on a zero total and an empty terminal. *)
Definition layer_flops (l : layer) : result Z := snd (flops_body 0 l 0 []).

Definition layer_lines (i : nat) (l : layer) : stdout :=
  fst (flops_body i l 0 []).

Definition sum_Z (zs : list Z) : Z := fold_right Z.add 0 zs.

(** The operation count a printed line reports for a layer. *)
Definition line_flops (l : line) : Z :=
  match l with
  | LUnits _ _ f => f
  | LReLU n => n
  | LSoftmax n => n
  | _ => 0
  end.

(** The layer index a header line carries. *)
Definition report_index (l : line) : option nat :=
  match l with
  | LFlatten i => Some i
  | LDense i => Some i
  | _ => None
  end.

Definition is_header (l : line) : bool :=
  match l with
  | LFlatten _ | LDense _ => true
  | _ => false
  end.

(** The per-layer entries of a trace: its header lines. *)
Definition headers (out : stdout) : stdout := filter is_header out.

(** The kinds the [if]/[elif] chain has a branch for. *)
Definition supported (l : layer) : bool :=
  match l with
  | Flatten _ => true
  | Dense _ _ _ => true
  | OtherLayer _ => false
  end.

(** Python's [enumerate], counting from [i]. *)
Definition enumerate {A : Type} (i : nat) (xs : list A) : list (nat * A) :=
  combine (seq i (List.length xs)) xs.

(** The header line the body prints first for layer [l] at index [i]. *)
Definition header_of (p : nat * layer) : stdout :=
  match snd p with
  | Flatten _ => [LFlatten (fst p)]
  | Dense _ _ _ => [LDense (fst p)]
  | OtherLayer _ => []
  end.

(** Outcome and trace of the loop alone, run from a zero total on an empty
    terminal. *)
Definition total_of (ls : list layer) : result Z :=
  snd (flops_loop 0 ls 0 []).

Definition lines_of (i : nat) (ls : list layer) : stdout :=
  fst (flops_loop i ls 0 []).

(** Both sizes of every [Dense] layer are present. *)
Definition sized (l : layer) : bool :=
  match l with
  | Dense (Some _) (Some _) _ => true
  | Dense _ _ _ => false
  | _ => true
  end.

(** No size of a [Dense] layer is negative. *)
Definition nonneg_sizes (l : layer) : bool :=
  match l with
  | Dense (Some a) (Some b) _ => (0 <=? a) && (0 <=? b)
  | _ => true
  end.

Definition unlines (ss : list string) : string :=
  fold_right (fun s acc => s ++ nl ++ acc)%string EmptyString ss.

(** The cell output recorded in the notebook for the first model. *)
Definition recorded_output_A : string :=
  unlines [ "Layer 0: Flatten — no FLOPs counted.";
            "Layer 1: Dense";
            "  input_units: 784, output_units: 100, flops: 156800";
            "  +ReLU activation FLOPs: 100";
            "Layer 2: Dense";
            "  input_units: 100, output_units: 100, flops: 20000";
            "  +ReLU activation FLOPs: 100";
            "Layer 3: Dense";
            "  input_units: 100, output_units: 10, flops: 2000";
            "  +Softmax activation FLOPs (approx): 50";
            "";
            "Total estimated FLOPs: 179,050" ]%string.

(** The second model of the notebook. *)
Definition scenario_B : model :=
  Sequential [ Flatten [28; 28];
               Dense (Some 784) (Some 50) ReLU;
               Dense (Some 50) (Some 50) ReLU;
               Dense (Some 50) (Some 10) Softmax ].

(** ** Comparing and rearranging models *)

Definition is_dense (l : layer) : bool :=
  match l with
  | Dense _ _ _ => true
  | _ => false
  end.

(** The operations per output unit that the [Dense] branch adds for the
    activation: [flops += output_units] for relu, [5 * output_units] for
    softmax, nothing otherwise. *)
Definition act_weight (act : activation) : Z :=
  match act with
  | ReLU => 1
  | Softmax => 5
  | ActNone | ActOther _ => 0
  end.

(** Layer [l] is of the kind of [l'] and, when both are Dense, has sizes
    that are present, not negative and not above those of [l'], with an
    activation that is not dearer. *)
Definition layer_leb (l l' : layer) : bool :=
  match l, l' with
  | Flatten _, Flatten _ => true
  | OtherLayer _, OtherLayer _ => true
  | Dense (Some a) (Some b) f, Dense (Some a') (Some b') g =>
      (0 <=? a) && (a <=? a') && (0 <=? b) && (b <=? b')
      && (act_weight f <=? act_weight g)
  | _, _ => false
  end.

(** A line printed for layer [i] as it reads when the layer sits [k] places
    further down the model. *)
Definition shift_line (k : nat) (l : line) : line :=
  match l with
  | LFlatten i => LFlatten (k + i)
  | LDense i => LDense (k + i)
  | _ => l
  end.

Definition not_comma (c : ascii) : bool := negb (Ascii.eqb c ","%char).

(** Python's [s.replace(',', '')]. *)
Definition strip_commas (s : string) : string :=
  string_of_list_ascii (filter not_comma (list_ascii_of_string s)).

(** The [units] attribute holds an integer, as on every layer the
    constructor of [Dense] has built. *)
Definition has_units (l : layer) : bool :=
  match l with
  | Dense _ None _ => false
  | _ => true
  end.

(** The exception of the first Dense layer that lacks a size, if there is
    one: [AttributeError] when it has no input shape, [TypeError] when it
    has one and its [units] is [None]. *)
Fixpoint first_error (ls : list layer) : option exn :=
  match ls with
  | [] => None
  | Dense None _ _ :: _ => Some AttributeError
  | Dense (Some _) None _ :: _ => Some TypeError
  | _ :: rest => first_error rest
  end.

(** ** The cell that splits the training data *)

#[local] Set Warnings "-abstract-large-number".
Definition split_index : nat := 50000.

(** [x_val = x_train[50000:]], [y_val = y_train[50000:]],
    [x_train = x_train[:50000]], [y_train = y_train[:50000]], on arrays seen
    as the lists of their rows: the new training pair and the validation
    pair. *)
Definition train_val_split {X Y : Type} (x_train : list X) (y_train : list Y)
    : (list X * list Y) * (list X * list Y) :=
  let x_val := skipn split_index x_train in
  let y_val := skipn split_index y_train in
  let x_train := firstn split_index x_train in
  let y_train := firstn split_index y_train in
  ((x_train, y_train), (x_val, y_val)).

(** * Properties *)

(** ** The loop body and the loop *)

Lemma add_result_assoc (t c : Z) (r : result Z) :
  add_result t (add_result c r) = add_result (t + c) r.
Proof. destruct r; simpl; [f_equal; lia | reflexivity]. Qed.

Lemma Ok_inj {A : Type} (a b : A) : Ok a = Ok b -> a = b.
Proof. congruence. Qed.

Lemma add_result_0 (r : result Z) : add_result 0 r = r.
Proof. destruct r; reflexivity. Qed.

(** The body appends the layer's lines to the terminal and adds the layer's
    count to the running total, or raises what the layer raises. *)
Lemma flops_body_eq (i : nat) (l : layer) (t : Z) (w : stdout) :
  flops_body i l t w = (w ++ layer_lines i l, add_result t (layer_flops l)).
Proof.
  destruct l as [s | [a |] [b |] act | n];
    try destruct act;
    cbv [flops_body dense_flops layer_lines layer_flops input_shape_last
         as_int bind print
         ret raise add_result fst snd];
    cbn [app]; rewrite <- ?app_assoc; cbn [app];
    rewrite ?app_nil_r, ?Z.add_0_l, ?Z.add_0_r; reflexivity.
Qed.

Lemma flops_loop_cons (i : nat) (l : layer) (ls : list layer) (t : Z)
    (w : stdout) :
  flops_loop i (l :: ls) t w =
  match layer_flops l with
  | Ok c => flops_loop (S i) ls (t + c) (w ++ layer_lines i l)
  | Raise e => (w ++ layer_lines i l, Raise e)
  end.
Proof.
  cbn [flops_loop]. unfold bind at 1. rewrite flops_body_eq.
  destruct (layer_flops l); reflexivity.
Qed.

Lemma flops_loop_eq (ls : list layer) :
  forall (i : nat) (t : Z) (w : stdout),
    flops_loop i ls t w = (w ++ lines_of i ls, add_result t (total_of ls)).
Proof.
  induction ls as [| l ls IH]; intros i t w.
  - cbn. unfold ret. now rewrite app_nil_r, Z.add_0_r.
  - unfold lines_of, total_of. rewrite !flops_loop_cons.
    destruct (layer_flops l) as [c | e]; cbn [fst snd].
    + rewrite !IH. cbn [fst snd app].
      now rewrite app_assoc, add_result_assoc, Z.add_0_l.
    + reflexivity.
Qed.

Lemma total_of_nil : total_of [] = Ok 0.
Proof. reflexivity. Qed.

Lemma total_of_cons (l : layer) (ls : list layer) :
  total_of (l :: ls) =
  match layer_flops l with
  | Ok c => add_result c (total_of ls)
  | Raise e => Raise e
  end.
Proof.
  unfold total_of at 1. rewrite flops_loop_cons.
  destruct (layer_flops l); [| reflexivity].
  now rewrite flops_loop_eq, Z.add_0_l.
Qed.

Lemma lines_of_nil (i : nat) : lines_of i [] = [].
Proof. reflexivity. Qed.

Lemma lines_of_cons (i : nat) (l : layer) (ls : list layer) :
  lines_of i (l :: ls) =
  layer_lines i l ++
  match layer_flops l with
  | Ok _ => lines_of (S i) ls
  | Raise _ => []
  end.
Proof.
  unfold lines_of at 1. rewrite flops_loop_cons.
  destruct (layer_flops l).
  - now rewrite flops_loop_eq.
  - cbn [fst app]. now rewrite app_nil_r.
Qed.

Lemma total_of_app (xs ys : list layer) :
  total_of (xs ++ ys) =
  match total_of xs with
  | Ok a => add_result a (total_of ys)
  | Raise e => Raise e
  end.
Proof.
  induction xs as [| l xs IH]; cbn [app].
  - now rewrite total_of_nil, add_result_0.
  - rewrite !total_of_cons. destruct (layer_flops l) as [c | e]; [| reflexivity].
    rewrite IH. destruct (total_of xs) as [a | e]; cbn [add_result].
    + now rewrite add_result_assoc.
    + reflexivity.
Qed.

Lemma lines_of_app (xs ys : list layer) :
  forall i : nat,
    lines_of i (xs ++ ys) =
    lines_of i xs ++
    match total_of xs with
    | Ok _ => lines_of (i + List.length xs) ys
    | Raise _ => []
    end.
Proof.
  induction xs as [| l xs IH]; intros i; cbn [app List.length].
  - now rewrite total_of_nil, lines_of_nil, Nat.add_0_r.
  - rewrite !lines_of_cons, total_of_cons.
    destruct (layer_flops l) as [c | e].
    + rewrite IH, <- app_assoc, Nat.add_succ_r.
      now destruct (total_of xs).
    + now rewrite !app_nil_r.
Qed.

(** The whole function: the loop, then the line with the total. *)
Lemma flops_eq (m : model) (w : stdout) :
  flops m w =
  match total_of (layers m) with
  | Ok t => (w ++ lines_of 0 (layers m) ++ [LTotal t], Ok t)
  | Raise e => (w ++ lines_of 0 (layers m), Raise e)
  end.
Proof.
  unfold flops, bind. rewrite flops_loop_eq, add_result_0.
  destruct (total_of (layers m)); [| reflexivity].
  unfold print, ret. now rewrite <- app_assoc.
Qed.

Lemma flops_snd (m : model) (w : stdout) :
  snd (flops m w) = total_of (layers m).
Proof. rewrite flops_eq. now destruct (total_of (layers m)). Qed.

Lemma flops_fst (m : model) (w : stdout) :
  fst (flops m w) = w ++ fst (flops m []).
Proof. rewrite !flops_eq. now destruct (total_of (layers m)). Qed.

(** ** The three kinds of layer *)

Lemma layer_flops_Flatten (s : list Z) : layer_flops (Flatten s) = Ok 0.
Proof. reflexivity. Qed.

Lemma layer_flops_OtherLayer (n : string) : layer_flops (OtherLayer n) = Ok 0.
Proof. reflexivity. Qed.

Lemma layer_flops_Dense (a b : Z) (act : activation) :
  layer_flops (Dense (Some a) (Some b) act) =
  Ok (2 * a * b +
      match act with
      | ReLU => b
      | Softmax => 5 * b
      | ActNone | ActOther _ => 0
      end).
Proof.
  destruct act;
    cbv [layer_flops flops_body dense_flops input_shape_last as_int bind print
         ret snd];
    now rewrite Z.add_0_l, ?Z.add_0_r.
Qed.

Lemma layer_flops_absent (iu ou : option Z) (act : activation) :
  iu = None \/ ou = None ->
  layer_flops (Dense iu ou act) =
  Raise match iu with
        | None => AttributeError
        | Some _ => TypeError
        end.
Proof. intros [-> | ->]; [| destruct iu]; reflexivity. Qed.

Lemma layer_lines_Dense (i : nat) (a b : Z) (act : activation) :
  layer_lines i (Dense (Some a) (Some b) act) =
  [LDense i; LUnits a b (2 * a * b)] ++
  match act with
  | ReLU => [LReLU b]
  | Softmax => [LSoftmax (5 * b)]
  | ActNone | ActOther _ => []
  end.
Proof. destruct act; reflexivity. Qed.

(** ** The Dense rule *)

(** C1.  A Dense layer with input size [a] and output size [b] adds
    [2*a*b] to the total, plus [b] with ReLU, [5*b] with Softmax, and nothing
    more with no activation or with any other activation; this is the count
    of the layer, the increment of the running total in the loop, and the
    total of the model made of that layer alone. *)
Theorem dense_rule (a b : Z) (act : activation) :
  let cost :=
    2 * a * b +
    match act with
    | ActNone => 0
    | ReLU => b
    | Softmax => 5 * b
    | ActOther _ => 0
    end in
  layer_flops (Dense (Some a) (Some b) act) = Ok cost
  /\ (forall (i : nat) (t : Z) (w : stdout),
        snd (flops_body i (Dense (Some a) (Some b) act) t w) = Ok (t + cost))
  /\ (forall w : stdout,
        snd (flops (Sequential [Dense (Some a) (Some b) act]) w) = Ok cost).
Proof.
  intros cost.
  assert (E : layer_flops (Dense (Some a) (Some b) act) = Ok cost)
    by (rewrite layer_flops_Dense; subst cost; now destruct act).
  split; [exact E |]. split.
  - intros i t w. now rewrite flops_body_eq, E.
  - intros w. rewrite flops_snd. cbn [layers].
    rewrite total_of_cons, E, total_of_nil. cbn. now rewrite Z.add_0_r.
Qed.

(** ** The first model of the notebook *)

(** C3.  On [Flatten, Dense(784->100, ReLU), Dense(100->100, ReLU),
    Dense(100->10, Softmax)] the layers add 0, 156900, 20100 and 2050, the
    function returns 179050, and the text it prints is the cell output the
    notebook records. *)
Theorem scenario_A_costs :
  map layer_flops (layers scenario_A) = [Ok 0; Ok 156900; Ok 20100; Ok 2050]
  /\ snd (flops scenario_A []) = Ok 179050
  /\ render (fst (flops scenario_A [])) = recorded_output_A.
Proof. repeat split; vm_compute; reflexivity. Qed.

Example scenario_B_costs :
  map layer_flops (layers scenario_B) = [Ok 0; Ok 78450; Ok 5050; Ok 1050]
  /\ snd (flops scenario_B []) = Ok 84550.
Proof. split; vm_compute; reflexivity. Qed.

(** ** Flatten *)

(** C6.  A Flatten layer of any shape adds 0: the body leaves the total as
    it is and prints the line "Layer i: Flatten — no FLOPs counted.", the
    outcome of a model is the outcome of the model without that layer, and
    whenever the layers before it are costed its line is in the trace, under
    its own index. *)
Theorem flatten_rule (s : list Z) :
  layer_flops (Flatten s) = Ok 0
  /\ (forall (i : nat) (t : Z) (w : stdout),
        flops_body i (Flatten s) t w = (w ++ [LFlatten i], Ok t))
  /\ (forall (xs ys : list layer) (w : stdout),
        snd (flops (Sequential (xs ++ Flatten s :: ys)) w) =
        snd (flops (Sequential (xs ++ ys)) w))
  /\ (forall (xs ys : list layer) (w : stdout) (t : Z),
        total_of xs = Ok t ->
        In (LFlatten (List.length xs))
           (fst (flops (Sequential (xs ++ Flatten s :: ys)) w))).
Proof.
  split; [reflexivity |]. split; [reflexivity |]. split.
  - intros xs ys w. rewrite !flops_snd. cbn [layers].
    rewrite !total_of_app, total_of_cons, layer_flops_Flatten.
    destruct (total_of xs); [| reflexivity].
    now rewrite add_result_0.
  - intros xs ys w t Hxs. rewrite flops_eq. cbn [layers].
    assert (Hin : In (LFlatten (List.length xs))
                     (lines_of 0 (xs ++ Flatten s :: ys))).
    { rewrite lines_of_app, Hxs, lines_of_cons. cbn [Nat.add].
      apply in_or_app. right. apply in_or_app. left. now left. }
    destruct (total_of (xs ++ Flatten s :: ys)); cbn [fst];
      apply in_or_app; right; [apply in_or_app; left |]; exact Hin.
Qed.

Lemma flatten_rule_witness :
  total_of [Dense (Some 4) (Some 2) ReLU] = Ok 18
  /\ In (LFlatten 1)
        (fst (flops (Sequential ([Dense (Some 4) (Some 2) ReLU]
                                 ++ Flatten [2; 1] :: [OtherLayer "Conv2D"]))
                    [])).
Proof.
  split; [reflexivity |].
  apply (proj2 (proj2 (proj2 (flatten_rule [2; 1])))
           [Dense (Some 4) (Some 2) ReLU] [OtherLayer "Conv2D"] [] 18).
  reflexivity.
Defined.

(** ** The empty model *)

(** C8.  On a model without layers the function returns 0 and raises
    nothing; no layer entry is printed, only the line of the total. *)
Theorem empty_model (w : stdout) :
  flops (Sequential []) w = (w ++ [LTotal 0], Ok 0)
  /\ headers (fst (flops (Sequential []) [])) = []
  /\ render (fst (flops (Sequential []) [])) =
     (nl ++ "Total estimated FLOPs: 0" ++ nl)%string.
Proof. repeat split. Qed.

(** ** The total is the sum of what the layers report *)

Lemma sum_Z_app (xs ys : list Z) : sum_Z (xs ++ ys) = sum_Z xs + sum_Z ys.
Proof. unfold sum_Z. induction xs as [| x xs IH]; cbn [app fold_right]; lia. Qed.

Lemma add_result_Ok (c t : Z) (r : result Z) :
  add_result c r = Ok t -> exists t', r = Ok t' /\ t = c + t'.
Proof. destruct r as [t' | e]; cbn; [| discriminate]. intros [= <-]. eauto. Qed.

(** The counts printed for a layer add up to what the layer adds. *)
Lemma layer_lines_sum (i : nat) (l : layer) (c : Z) :
  layer_flops l = Ok c -> sum_Z (map line_flops (layer_lines i l)) = c.
Proof.
  destruct l as [s | [a |] [b |] act | n]; try discriminate.
  - now intros [= <-].
  - rewrite layer_flops_Dense, layer_lines_Dense. intros [= <-].
    destruct act; cbn; lia.
  - now intros [= <-].
Qed.

Lemma lines_of_sum (ls : list layer) :
  forall (i : nat) (t : Z),
    total_of ls = Ok t -> sum_Z (map line_flops (lines_of i ls)) = t.
Proof.
  induction ls as [| l ls IH]; intros i t.
  - rewrite total_of_nil. now intros [= <-].
  - rewrite total_of_cons, lines_of_cons.
    destruct (layer_flops l) as [c |] eqn:El; [| discriminate].
    intros H. apply add_result_Ok in H as (t' & Hls & ->).
    rewrite map_app, sum_Z_app, (layer_lines_sum _ _ _ El), (IH _ _ Hls).
    reflexivity.
Qed.

Lemma total_of_costs (ls : list layer) :
  forall t : Z,
    total_of ls = Ok t ->
    exists costs : list Z,
      map layer_flops ls = map Ok costs /\ t = sum_Z costs.
Proof.
  induction ls as [| l ls IH]; intros t.
  - rewrite total_of_nil. intros [= <-]. now exists [].
  - rewrite total_of_cons.
    destruct (layer_flops l) as [c |] eqn:El; [| discriminate].
    intros H. apply add_result_Ok in H as (t' & Hls & ->).
    destruct (IH _ Hls) as (costs & Hm & ->).
    exists (c :: costs). cbn. now rewrite El, Hm.
Qed.

(** The function returns on every model whose Dense layers have both
    sizes. *)
Lemma flops_returns (m : model) (w : stdout) :
  forallb sized (layers m) = true -> exists t : Z, snd (flops m w) = Ok t.
Proof.
  rewrite flops_snd. destruct m as [ls]. cbn [layers].
  induction ls as [| l ls IH]; cbn [forallb].
  - now exists 0.
  - intros H. apply andb_prop in H as [Hl Hls].
    destruct (IH Hls) as [t Ht]. rewrite total_of_cons, Ht.
    destruct l as [s | [a |] [b |] act | n]; try discriminate.
    + rewrite layer_flops_Flatten. cbn. eauto.
    + rewrite layer_flops_Dense. cbn. eauto.
    + rewrite layer_flops_OtherLayer. cbn. eauto.
Qed.

(** C2.  When the function returns, the total it returns is the sum of the
    counts printed in the per-layer lines of its trace (the line of the total
    closes the trace), and it is the sum of what the layers each add. *)
Theorem total_is_sum (m : model) (out : stdout) (total : Z) :
  flops m [] = (out, Ok total) ->
  (exists entries : stdout,
      out = entries ++ [LTotal total]
      /\ total = sum_Z (map line_flops entries))
  /\ (exists costs : list Z,
        map layer_flops (layers m) = map Ok costs
        /\ total = sum_Z costs).
Proof.
  rewrite flops_eq.
  destruct (total_of (layers m)) as [t |] eqn:Et; [| discriminate].
  intros [= <- <-]. split.
  - exists (lines_of 0 (layers m)). split; [reflexivity |].
    symmetry. now apply lines_of_sum.
  - now apply total_of_costs.
Qed.

Lemma total_is_sum_witness :
  flops scenario_A [] =
  ([LFlatten 0; LDense 1; LUnits 784 100 156800; LReLU 100;
    LDense 2; LUnits 100 100 20000; LReLU 100;
    LDense 3; LUnits 100 10 2000; LSoftmax 50; LTotal 179050], Ok 179050)
  /\ (exists costs : list Z,
        map layer_flops (layers scenario_A) = map Ok costs
        /\ 179050 = sum_Z costs).
Proof.
  split; [reflexivity |].
  apply (total_is_sum scenario_A
           [LFlatten 0; LDense 1; LUnits 784 100 156800; LReLU 100;
            LDense 2; LUnits 100 100 20000; LReLU 100;
            LDense 3; LUnits 100 10 2000; LSoftmax 50; LTotal 179050]
           179050).
  reflexivity.
Defined.

(** ** Concatenation *)

Lemma layer_flops_nonneg (l : layer) (c : Z) :
  nonneg_sizes l = true -> layer_flops l = Ok c -> 0 <= c.
Proof.
  destruct l as [s | [a |] [b |] act | n].
  - rewrite layer_flops_Flatten. intros _ [= <-]. lia.
  - cbn [nonneg_sizes]. intros H. apply andb_prop in H as [Ha Hb].
    apply Z.leb_le in Ha, Hb. rewrite layer_flops_Dense.
    intros H%Ok_inj. subst c. destruct act; nia.
  - rewrite layer_flops_absent by now right. discriminate.
  - rewrite layer_flops_absent by now left. discriminate.
  - rewrite layer_flops_absent by now left. discriminate.
  - rewrite layer_flops_OtherLayer. intros _ [= <-]. lia.
Qed.

Lemma total_of_nonneg (ls : list layer) :
  forall t : Z,
    forallb nonneg_sizes ls = true -> total_of ls = Ok t -> 0 <= t.
Proof.
  induction ls as [| l ls IH]; intros t; cbn [forallb].
  - rewrite total_of_nil. intros _ [= <-]. lia.
  - intros H. apply andb_prop in H as [Hl Hls]. rewrite total_of_cons.
    destruct (layer_flops l) as [c |] eqn:El; [| discriminate].
    intros H. apply add_result_Ok in H as (t' & Ht' & ->).
    pose proof (layer_flops_nonneg _ _ Hl El).
    pose proof (IH _ Hls Ht'). lia.
Qed.

(** The sizes have to be nonnegative for the total to be: [flops] does not
    check them, and a layer whose [units] were overwritten with a negative
    number (the constructor of [Dense] refuses one) makes the total
    negative. *)
Lemma negative_total :
  snd (flops (Sequential []) []) = Ok 0
  /\ snd (flops (Sequential ([] ++ [Dense (Some 3) (Some (-2)) ActNone])) [])
     = Ok (-12)
  /\ -12 < 0.
Proof. repeat split. Qed.

(** C10.  The total is additive over concatenation: the outcome on
    [xs ++ ys] is the exception of [xs] when [xs] raises, and otherwise the
    total of [xs] added to the outcome of [ys]; so when both are costed the
    total of [xs ++ ys] is the sum of the two totals.  Hence, the sizes of
    layers being nonnegative (the constructor of [Dense] refuses negative
    units, and no dimension of an input shape is negative), the total is
    nonnegative and appending layers does not lower it. *)
Theorem total_additive (xs ys : list layer) (w : stdout) :
  snd (flops (Sequential (xs ++ ys)) w) =
    match snd (flops (Sequential xs) w) with
    | Ok a => add_result a (snd (flops (Sequential ys) w))
    | Raise e => Raise e
    end
  /\ (forall a b : Z,
        snd (flops (Sequential xs) w) = Ok a ->
        snd (flops (Sequential ys) w) = Ok b ->
        snd (flops (Sequential (xs ++ ys)) w) = Ok (a + b))
  /\ (forall a : Z,
        forallb nonneg_sizes xs = true ->
        snd (flops (Sequential xs) w) = Ok a -> 0 <= a)
  /\ (forall a c : Z,
        forallb nonneg_sizes ys = true ->
        snd (flops (Sequential xs) w) = Ok a ->
        snd (flops (Sequential (xs ++ ys)) w) = Ok c -> a <= c).
Proof.
  rewrite !flops_snd. cbn [layers]. rewrite total_of_app.
  split; [reflexivity |]. split; [| split].
  - intros a b -> ->. reflexivity.
  - intros a. apply total_of_nonneg.
  - intros a c Hys ->. intros H.
    apply add_result_Ok in H as (t' & Ht' & ->).
    pose proof (total_of_nonneg _ _ Hys Ht'). lia.
Qed.

Lemma total_additive_witness :
  (snd (flops (Sequential [Dense (Some 4) (Some 2) ReLU]) []) = Ok 18
   /\ snd (flops (Sequential [Flatten [3]; Dense (Some 2) (Some 3) Softmax]) [])
      = Ok 27
   /\ forallb nonneg_sizes [Dense (Some 4) (Some 2) ReLU] = true
   /\ forallb nonneg_sizes [Flatten [3]; Dense (Some 2) (Some 3) Softmax]
      = true)
  /\ snd (flops (Sequential ([Dense (Some 4) (Some 2) ReLU]
                             ++ [Flatten [3]; Dense (Some 2) (Some 3) Softmax]))
                [])
     = Ok (18 + 27)
  /\ 0 <= 18
  /\ 18 <= 45.
Proof.
  destruct (total_additive [Dense (Some 4) (Some 2) ReLU]
              [Flatten [3]; Dense (Some 2) (Some 3) Softmax] [])
    as (_ & Hadd & Hpos & Hmono).
  split; [repeat split |]. split; [| split].
  - apply (Hadd 18 27); reflexivity.
  - apply (Hpos 18); reflexivity.
  - apply (Hmono 18 45); reflexivity.
Defined.

(** ** Layers of another kind *)

(** The counts printed for the layers do not depend on where the
    enumeration starts. *)
Lemma lines_of_counts (ls : list layer) :
  forall i j : nat,
    map line_flops (lines_of i ls) = map line_flops (lines_of j ls).
Proof.
  induction ls as [| l ls IH]; intros i j; [reflexivity |].
  rewrite !lines_of_cons, !map_app. f_equal.
  - destruct l as [s | [a |] [b |] act | n]; try destruct act; reflexivity.
  - destruct (layer_flops l); [apply IH | reflexivity].
Qed.

(** A header line of a layer carries the index of that layer, and only
    Flatten and Dense layers have one. *)
Lemma layer_lines_index (i j : nat) (l : layer) (ln : line) :
  In ln (layer_lines i l) -> report_index ln = Some j ->
  j = i /\ supported l = true.
Proof.
  destruct l as [s | [a |] [b |] act | n]; try destruct act; cbn;
    intros Hin Hj;
    repeat (destruct Hin as [<- | Hin]; [cbn in Hj |]);
    try contradiction; try discriminate;
    injection Hj as <-; now split.
Qed.

Lemma lines_of_index (ls : list layer) :
  forall (i j : nat) (ln : line),
    In ln (lines_of i ls) -> report_index ln = Some j ->
    (i <= j)%nat
    /\ exists l : layer,
         nth_error ls (j - i) = Some l /\ supported l = true.
Proof.
  induction ls as [| l ls IH]; intros i j ln; [contradiction |].
  rewrite lines_of_cons. intros Hin Hj.
  apply in_app_or in Hin as [Hin | Hin].
  - destruct (layer_lines_index _ _ _ _ Hin Hj) as [-> Hs].
    split; [lia |]. exists l. now rewrite Nat.sub_diag.
  - destruct (layer_flops l); [| contradiction].
    destruct (IH _ _ _ Hin Hj) as (Hle & l' & Hn & Hs).
    split; [lia |]. exists l'. split; [| exact Hs].
    replace (j - i)%nat with (S (j - S i)) by lia. exact Hn.
Qed.

(** A model with one layer of an unknown kind prints what the empty model
    prints: no line mentions the layer. *)
Lemma unsupported_layer_not_flagged :
  flops (Sequential [OtherLayer "Conv2D"]) [] = ([LTotal 0], Ok 0)
  /\ flops (Sequential []) [] = ([LTotal 0], Ok 0)
  /\ headers (fst (flops (Sequential [OtherLayer "Conv2D"]) [])) = []
  /\ render (fst (flops (Sequential [OtherLayer "Conv2D"]) [])) =
     (nl ++ "Total estimated FLOPs: 0" ++ nl)%string.
Proof. repeat split. Qed.

(** C4 (amended).  A layer that is neither Dense nor Flatten never makes the
    function raise and adds 0: the body leaves the total and the terminal as
    they are, the outcome of a model is the outcome of the model without the
    layer, and the counts printed for the other layers are the same.  The
    layer itself is skipped in silence: no line of the trace carries its
    index. *)
Theorem unsupported_layer_skipped (n : string) (xs ys : list layer) :
  (forall (i : nat) (t : Z) (w : stdout),
      flops_body i (OtherLayer n) t w = (w, Ok t))
  /\ (forall w : stdout,
        snd (flops (Sequential (xs ++ OtherLayer n :: ys)) w) =
        snd (flops (Sequential (xs ++ ys)) w))
  /\ map line_flops (fst (flops (Sequential (xs ++ OtherLayer n :: ys)) [])) =
     map line_flops (fst (flops (Sequential (xs ++ ys)) []))
  /\ ~ In (Some (List.length xs))
          (map report_index
               (fst (flops (Sequential (xs ++ OtherLayer n :: ys)) []))).
Proof.
  assert (Et : total_of (xs ++ OtherLayer n :: ys) = total_of (xs ++ ys)).
  { rewrite !total_of_app, total_of_cons, layer_flops_OtherLayer.
    destruct (total_of xs); [| reflexivity]. now rewrite add_result_0. }
  assert (El : forall i : nat,
             map line_flops (lines_of i (xs ++ OtherLayer n :: ys)) =
             map line_flops (lines_of i (xs ++ ys))).
  { intros i. rewrite !lines_of_app, !map_app. f_equal.
    destruct (total_of xs); [| reflexivity].
    rewrite lines_of_cons, layer_flops_OtherLayer. cbn [app layer_lines].
    apply lines_of_counts. }
  split; [reflexivity |]. split; [| split].
  - intros w. now rewrite !flops_snd.
  - rewrite !flops_eq. cbn [layers]. rewrite Et.
    destruct (total_of (xs ++ ys)); cbn [fst app];
      rewrite ?map_app, El; reflexivity.
  - intros Hin. apply in_map_iff in Hin as (ln & Hj & Hin).
    assert (Hl : In ln (lines_of 0 (xs ++ OtherLayer n :: ys))).
    { rewrite flops_eq in Hin. cbn [layers] in Hin.
      destruct (total_of (xs ++ OtherLayer n :: ys)); cbn [fst app] in Hin;
        [| exact Hin].
      apply in_app_or in Hin as [Hin | [<- | []]];
        [exact Hin | discriminate]. }
    destruct (lines_of_index _ _ _ _ Hl Hj) as (_ & l & Hn & Hs).
    rewrite Nat.sub_0_r, nth_error_app2, Nat.sub_diag in Hn by lia.
    injection Hn as <-. discriminate.
Qed.

(** ** Sizes of a Dense layer *)

(** A Dense layer with output size 0 is costed 0, with the lines of any
    Dense layer and nothing that marks it; a Dense layer without input
    shape ends the whole call with [AttributeError], the layers after it
    unvisited.  A size below 0, which only an overwritten attribute can
    hold, is costed below 0 in the same way. *)
Lemma invalid_dense_not_rejected :
  flops (Sequential [Dense (Some 3) (Some 0) ActNone]) [] =
    ([LDense 0; LUnits 3 0 0; LTotal 0], Ok 0)
  /\ flops (Sequential [Dense None (Some 10) ReLU;
                        Dense (Some 10) (Some 10) ReLU]) [] =
       ([LDense 0], Raise AttributeError)
  /\ flops (Sequential [Dense (Some 3) (Some (-2)) ReLU]) [] =
       ([LDense 0; LUnits 3 (-2) (-12); LReLU (-2); LTotal (-14)], Ok (-14))
  /\ -14 < 0.
Proof. repeat split. Qed.

(** C5 (amended).  The sizes of a Dense layer are not checked.  When both
    are present the layer is costed by the Dense rule whatever their sign,
    also when one is zero or negative: it prints the lines of any Dense
    layer and adds [2*a*b] plus the activation term, which is 0 when the
    output size is 0.  When the layer has no input shape, reading
    [layer.input_shape] raises [AttributeError] right after the header line
    of the layer is printed, before the units are read and before anything
    is multiplied; when it has one and its [units] is [None], the product
    raises [TypeError] at the same place of the trace.  Either way the call
    ends there, without a total. *)
Theorem dense_sizes_unchecked (i : nat) (act : activation) (t : Z)
    (w : stdout) :
  (forall a b : Z,
      flops_body i (Dense (Some a) (Some b) act) t w =
      (w ++ [LDense i; LUnits a b (2 * a * b)] ++
         match act with
         | ReLU => [LReLU b]
         | Softmax => [LSoftmax (5 * b)]
         | ActNone | ActOther _ => []
         end,
       Ok (t + (2 * a * b +
                match act with
                | ReLU => b
                | Softmax => 5 * b
                | ActNone | ActOther _ => 0
                end))))
  /\ (forall a : Z, layer_flops (Dense (Some a) (Some 0) act) = Ok 0)
  /\ (forall ou : option Z,
        flops_body i (Dense None ou act) t w =
        (w ++ [LDense i], Raise AttributeError))
  /\ (forall a : Z,
        flops_body i (Dense (Some a) None act) t w =
        (w ++ [LDense i], Raise TypeError))
  /\ (forall (iu ou : option Z) (xs ys : list layer) (t0 : Z),
        iu = None \/ ou = None ->
        total_of xs = Ok t0 ->
        flops (Sequential (xs ++ Dense iu ou act :: ys)) w =
        (w ++ lines_of 0 xs ++ [LDense (List.length xs)],
         Raise match iu with
               | None => AttributeError
               | Some _ => TypeError
               end)).
Proof.
  split; [| split; [| split; [| split]]].
  - intros a b.
    now rewrite flops_body_eq, layer_flops_Dense, layer_lines_Dense.
  - intros a. rewrite layer_flops_Dense. f_equal. destruct act; lia.
  - intros ou. now rewrite flops_body_eq, layer_flops_absent by now left.
  - intros a. now rewrite flops_body_eq, layer_flops_absent by now right.
  - intros iu ou xs ys t0 H Hxs. rewrite flops_eq. cbn [layers].
    rewrite total_of_app, Hxs, total_of_cons, (layer_flops_absent _ _ _ H).
    rewrite lines_of_app, Hxs, lines_of_cons, (layer_flops_absent _ _ _ H).
    rewrite app_nil_r. cbn [Nat.add add_result].
    destruct H as [-> | ->]; [| destruct iu]; reflexivity.
Qed.

Lemma dense_sizes_unchecked_witness :
  ((@None Z = None \/ Some 10 = @None Z)
   /\ total_of [Flatten [28; 28]] = Ok 0)
  /\ flops (Sequential ([Flatten [28; 28]]
                        ++ Dense None (Some 10) ReLU
                           :: [Dense (Some 10) (Some 10) ReLU])) [] =
     ([] ++ lines_of 0 [Flatten [28; 28]] ++ [LDense 1], Raise AttributeError).
Proof.
  split; [split; [left |]; reflexivity |].
  apply (proj2 (proj2 (proj2 (proj2 (dense_sizes_unchecked 0 ReLU 0 []))))
           None (Some 10) [Flatten [28; 28]]
           [Dense (Some 10) (Some 10) ReLU] 0).
  - left. reflexivity.
  - reflexivity.
Defined.

(** ** The entries of the trace *)

Lemma headers_app (a b : stdout) : headers (a ++ b) = headers a ++ headers b.
Proof. apply filter_app. Qed.

Lemma headers_layer_lines (i : nat) (l : layer) :
  headers (layer_lines i l) = header_of (i, l).
Proof.
  destruct l as [s | [a |] [b |] act | n]; try destruct act; reflexivity.
Qed.

Lemma enumerate_cons {A : Type} (i : nat) (x : A) (xs : list A) :
  enumerate i (x :: xs) = (i, x) :: enumerate (S i) xs.
Proof. reflexivity. Qed.

Lemma headers_lines_of (ls : list layer) :
  forall (i : nat) (t : Z),
    total_of ls = Ok t ->
    headers (lines_of i ls) = flat_map header_of (enumerate i ls).
Proof.
  induction ls as [| l ls IH]; intros i t; [reflexivity |].
  rewrite total_of_cons, lines_of_cons, enumerate_cons.
  destruct (layer_flops l) as [c |]; [| discriminate].
  intros H. apply add_result_Ok in H as (t' & Hls & _).
  cbn [flat_map]. now rewrite headers_app, headers_layer_lines, (IH _ _ Hls).
Qed.

Lemma header_of_length (p : nat * layer) :
  List.length (header_of p) = if supported (snd p) then 1%nat else 0%nat.
Proof. destruct p as [i [s | iu ou act | n]]; reflexivity. Qed.

Lemma entries_length_le (ls : list layer) :
  forall i : nat,
    (List.length (flat_map header_of (enumerate i ls)) <= List.length ls)%nat.
Proof.
  induction ls as [| l ls IH]; intros i; [apply Nat.le_refl |].
  rewrite enumerate_cons. cbn [flat_map List.length].
  rewrite length_app, header_of_length. specialize (IH (S i)).
  cbn [snd]. destruct (supported l); lia.
Qed.

Lemma entries_length_eq (ls : list layer) :
  forall i : nat,
    List.length (flat_map header_of (enumerate i ls)) = List.length ls
    <-> forallb supported ls = true.
Proof.
  induction ls as [| l ls IH]; intros i; [now split |].
  rewrite enumerate_cons. cbn [flat_map List.length forallb].
  rewrite length_app, header_of_length. cbn [snd].
  pose proof (entries_length_le ls (S i)) as Hle. specialize (IH (S i)).
  destruct (supported l); cbn [andb].
  - rewrite <- IH. split; lia.
  - split; [lia | discriminate].
Qed.

Lemma entries_nth (ls : list layer) :
  forallb supported ls = true ->
  forall (i k : nat) (l : layer),
    nth_error ls k = Some l ->
    nth_error (flat_map header_of (enumerate i ls)) k =
    hd_error (header_of ((i + k)%nat, l)).
Proof.
  induction ls as [| l0 ls IH]; intros Hs i k l; [now destruct k |].
  cbn [forallb] in Hs. apply andb_prop in Hs as [Hl0 Hls].
  rewrite enumerate_cons. cbn [flat_map].
  destruct k as [| k]; cbn [nth_error].
  - intros [= <-]. rewrite Nat.add_0_r.
    destruct l0 as [s | iu ou act | n]; [reflexivity | reflexivity | discriminate].
  - intros Hk. replace (i + S k)%nat with (S i + k)%nat by lia.
    rewrite <- (IH Hls (S i) k l Hk).
    destruct l0 as [s | iu ou act | n]; [reflexivity | reflexivity | discriminate].
Qed.

Lemma enumerate_In {A : Type} (xs : list A) :
  forall (i j : nat) (x : A),
    In (j, x) (enumerate i xs) ->
    (i <= j)%nat /\ nth_error xs (j - i) = Some x.
Proof.
  induction xs as [| x0 xs IH]; intros i j x; [contradiction |].
  rewrite enumerate_cons. intros [[= <- <-] | Hin].
  - now rewrite Nat.sub_diag.
  - destruct (IH _ _ _ Hin) as [Hle Hn]. split; [lia |].
    replace (j - i)%nat with (S (j - S i)) by lia. exact Hn.
Qed.

(** With a layer of an unknown kind the trace has fewer entries than the
    model has layers. *)
Lemma fewer_entries_than_layers :
  flops (Sequential [OtherLayer "Conv2D"; Dense (Some 2) (Some 3) ActNone]) []
  = ([LDense 1; LUnits 2 3 12; LTotal 12], Ok 12)
  /\ List.length
       (headers
          (fst (flops (Sequential [OtherLayer "Conv2D";
                                   Dense (Some 2) (Some 3) ActNone]) [])))
     <> List.length [OtherLayer "Conv2D"; Dense (Some 2) (Some 3) ActNone]
  /\ nth_error
       (headers
          (fst (flops (Sequential [OtherLayer "Conv2D";
                                   Dense (Some 2) (Some 3) ActNone]) [])))
       0
     = Some (LDense 1).
Proof. repeat split. discriminate. Qed.

(** C7 (amended).  When the function returns, the entries of its trace are
    the header lines of the Flatten and Dense layers, in the order of the
    model, each with the index its layer has in the model; a layer of
    another kind has no entry.  So the entries are never more than the
    layers, they are as many exactly when every layer is Flatten or Dense,
    and then the entry at position [i] is the header of layer [i]. *)
Theorem report_entries (m : model) (out : stdout) (total : Z) :
  flops m [] = (out, Ok total) ->
  headers out = flat_map header_of (enumerate 0 (layers m))
  /\ (forall ln : line,
        In ln (headers out) ->
        exists (i : nat) (l : layer),
          nth_error (layers m) i = Some l /\ header_of (i, l) = [ln])
  /\ (List.length (headers out) <= List.length (layers m))%nat
  /\ (List.length (headers out) = List.length (layers m)
      <-> forallb supported (layers m) = true)
  /\ (forallb supported (layers m) = true ->
      forall (i : nat) (l : layer),
        nth_error (layers m) i = Some l ->
        nth_error (headers out) i = hd_error (header_of (i, l))).
Proof.
  rewrite flops_eq.
  destruct (total_of (layers m)) as [t |] eqn:Et; [| discriminate].
  intros [= <- <-].
  assert (E : headers (lines_of 0 (layers m) ++ [LTotal t]) =
              flat_map header_of (enumerate 0 (layers m))).
  { rewrite headers_app, (headers_lines_of _ _ _ Et). apply app_nil_r. }
  rewrite E. split; [reflexivity |]. split; [| split; [| split]].
  - intros ln Hin. apply in_flat_map in Hin as ([i l] & Hp & Hin).
    apply enumerate_In in Hp as [_ Hn]. rewrite Nat.sub_0_r in Hn.
    exists i, l. split; [exact Hn |].
    destruct l as [s | iu ou act | n]; cbn in Hin |- *;
      [| | contradiction]; destruct Hin as [<- | []]; reflexivity.
  - apply entries_length_le.
  - apply entries_length_eq.
  - intros Hs i l Hn. now rewrite (entries_nth _ Hs 0 i l Hn).
Qed.

Lemma report_entries_witness :
  flops scenario_A [] =
  ([LFlatten 0; LDense 1; LUnits 784 100 156800; LReLU 100;
    LDense 2; LUnits 100 100 20000; LReLU 100;
    LDense 3; LUnits 100 10 2000; LSoftmax 50; LTotal 179050], Ok 179050)
  /\ headers
       [LFlatten 0; LDense 1; LUnits 784 100 156800; LReLU 100;
        LDense 2; LUnits 100 100 20000; LReLU 100;
        LDense 3; LUnits 100 10 2000; LSoftmax 50; LTotal 179050]
     = flat_map header_of (enumerate 0 (layers scenario_A)).
Proof.
  split; [reflexivity |].
  apply (report_entries scenario_A
           [LFlatten 0; LDense 1; LUnits 784 100 156800; LReLU 100;
            LDense 2; LUnits 100 100 20000; LReLU 100;
            LDense 3; LUnits 100 10 2000; LSoftmax 50; LTotal 179050]
           179050).
  reflexivity.
Defined.

(** * Further properties of [flops] *)

(** ** When the call returns and when it raises *)

Lemma total_of_sized (ls : list layer) (t : Z) :
  total_of ls = Ok t -> forallb sized ls = true.
Proof.
  revert t. induction ls as [| l ls IH]; intros t; [reflexivity |].
  rewrite total_of_cons. cbn [forallb].
  destruct l as [s | [a |] [b |] act | n];
    rewrite ?layer_flops_Flatten, ?layer_flops_Dense, ?layer_flops_OtherLayer;
    try (rewrite layer_flops_absent by (now left + now right); discriminate);
    intros H; apply add_result_Ok in H as (t' & Ht' & _);
    exact (IH _ Ht').
Qed.

Lemma add_result_Raise (c : Z) (r : result Z) (e : exn) :
  add_result c r = Raise e <-> r = Raise e.
Proof. destruct r; cbn; split; congruence. Qed.

Lemma total_of_first_error (ls : list layer) (e : exn) :
  total_of ls = Raise e <-> first_error ls = Some e.
Proof.
  induction ls as [| l ls IH]; [split; discriminate |].
  rewrite total_of_cons.
  destruct l as [s | [a |] [b |] act | n]; cbn [first_error];
    rewrite ?layer_flops_Flatten, ?layer_flops_Dense, ?layer_flops_OtherLayer,
      ?add_result_Raise; try exact IH;
    rewrite layer_flops_absent by (now left + now right);
    split; congruence.
Qed.

Lemma total_of_raises (ls : list layer) :
  forallb sized ls = false -> exists e : exn, total_of ls = Raise e.
Proof.
  intros H. destruct (total_of ls) as [t | e] eqn:E; [| now exists e].
  apply total_of_sized in E. congruence.
Qed.

Lemma first_error_has_units (ls : list layer) (e : exn) :
  forallb has_units ls = true -> first_error ls = Some e ->
  e = AttributeError.
Proof.
  induction ls as [| l ls IH]; [discriminate |]. cbn [forallb].
  intros H. apply andb_prop in H as [Hl Hls].
  destruct l as [s | [a |] [b |] act | n]; cbn [first_error];
    try (exact (IH Hls)); try discriminate; congruence.
Qed.

(** X1.  The call returns exactly on the models whose Dense layers all have
    both sizes.  On every other model it raises, and the exception is that
    of the first Dense layer lacking a size: [AttributeError] when that
    layer has no input shape, [TypeError] when it has one and its [units] is
    [None]; so when every layer has its units, as the layers Keras builds
    have, the exception is [AttributeError]. *)
Theorem flops_returns_iff (m : model) (w : stdout) :
  ((exists t : Z, snd (flops m w) = Ok t) <-> forallb sized (layers m) = true)
  /\ (forall e : exn,
        snd (flops m w) = Raise e <-> first_error (layers m) = Some e)
  /\ (forallb sized (layers m) = false ->
      exists e : exn, snd (flops m w) = Raise e)
  /\ (forallb sized (layers m) = false ->
      forallb has_units (layers m) = true ->
      snd (flops m w) = Raise AttributeError).
Proof.
  rewrite flops_snd. split; [split |].
  - intros [t Ht]. exact (total_of_sized _ _ Ht).
  - intros H. destruct (flops_returns m w H) as [t Ht].
    exists t. now rewrite <- flops_snd with (w := w).
  - split; [intros e; apply total_of_first_error |].
    split; [apply total_of_raises |].
    intros Hs Hu. destruct (total_of_raises _ Hs) as [e He].
    rewrite He. f_equal. apply (first_error_has_units (layers m)).
    + exact Hu.
    + now apply total_of_first_error.
Qed.

Lemma flops_returns_iff_witness :
  forallb sized (layers scenario_A) = true
  /\ (exists t : Z, snd (flops scenario_A []) = Ok t)
  /\ (forallb sized [Flatten [28; 28]; Dense None (Some 10) ReLU] = false
      /\ forallb has_units [Flatten [28; 28]; Dense None (Some 10) ReLU]
         = true)
  /\ snd (flops (Sequential [Flatten [28; 28]; Dense None (Some 10) ReLU]) [])
     = Raise AttributeError.
Proof.
  split; [reflexivity |]. split.
  - apply (proj2 (proj1 (flops_returns_iff scenario_A []))). reflexivity.
  - split; [split; reflexivity |].
    apply (proj2 (proj2 (proj2 (flops_returns_iff
                                  (Sequential [Flatten [28; 28];
                                               Dense None (Some 10) ReLU])
                                  [])))); reflexivity.
Defined.

(** The first layer that is not [sized], with what comes before it. *)
Lemma first_unsized (ls : list layer) :
  forallb sized ls = false ->
  exists (xs : list layer) (iu ou : option Z) (act : activation)
         (ys : list layer),
    ls = xs ++ Dense iu ou act :: ys
    /\ forallb sized xs = true
    /\ (iu = None \/ ou = None).
Proof.
  induction ls as [| l ls IH]; [discriminate |]. cbn [forallb].
  destruct (sized l) eqn:El; cbn [andb].
  - intros H. destruct (IH H) as (xs & iu & ou & act & ys & -> & Hxs & Hn).
    exists (l :: xs), iu, ou, act, ys. cbn [forallb app].
    now rewrite El, Hxs.
  - intros _. destruct l as [s | [a |] [b |] act | n]; try discriminate.
    + exists [], (Some a), None, act, ls. auto.
    + exists [], None, (Some b), act, ls. auto.
    + exists [], None, None, act, ls. auto.
Qed.

Lemma layer_lines_no_total (i : nat) (l : layer) (t : Z) :
  ~ In (LTotal t) (layer_lines i l).
Proof.
  destruct l as [s | [a |] [b |] act | n]; try destruct act; cbn;
    intuition discriminate.
Qed.

Lemma lines_of_no_total (ls : list layer) :
  forall (i : nat) (t : Z), ~ In (LTotal t) (lines_of i ls).
Proof.
  induction ls as [| l ls IH]; intros i t; [easy |].
  rewrite lines_of_cons. intros H. apply in_app_or in H as [H | H].
  - exact (layer_lines_no_total _ _ _ H).
  - destruct (layer_flops l); [exact (IH _ _ H) | easy].
Qed.

(** X2.  When the call raises, the model has a first Dense layer with an absent
    size; the call has printed the lines of the layers before it, then the
    header line of that layer, and stopped: the last line of the trace names
    the offending layer by its index, no later layer is visited and no line
    of a total is printed. *)
Theorem flops_raise_trace (m : model) (w : stdout) (e : exn) :
  snd (flops m w) = Raise e ->
  exists (xs : list layer) (iu ou : option Z) (act : activation)
         (ys : list layer),
    layers m = xs ++ Dense iu ou act :: ys
    /\ forallb sized xs = true
    /\ (iu = None \/ ou = None)
    /\ fst (flops m w) = w ++ lines_of 0 xs ++ [LDense (List.length xs)]
    /\ (forall t : Z, ~ In (LTotal t) (fst (flops m []))).
Proof.
  rewrite flops_snd. intros He.
  assert (Hs : forallb sized (layers m) = false).
  { destruct (forallb sized (layers m)) eqn:E; [| reflexivity].
    destruct (flops_returns m [] E) as [t Ht].
    rewrite flops_snd in Ht. congruence. }
  destruct (first_unsized _ Hs) as (xs & iu & ou & act & ys & El & Hxs & Hn).
  exists xs, iu, ou, act, ys. repeat (split; [assumption |]).
  destruct (flops_returns (Sequential xs) [] Hxs) as [tx Htx].
  rewrite flops_snd in Htx. cbn [layers] in Htx.
  assert (Hl : lines_of 0 (layers m) = lines_of 0 xs ++ [LDense (List.length xs)]).
  { rewrite El, lines_of_app, Htx, lines_of_cons, (layer_flops_absent _ _ _ Hn).
    rewrite app_nil_r. cbn [Nat.add]. f_equal.
    destruct Hn as [-> | ->]; [| destruct iu]; reflexivity. }
  rewrite !flops_eq, He, Hl. cbn [fst app]. split; [reflexivity |].
  intros t H. apply in_app_or in H as [H | [H | []]].
  - exact (lines_of_no_total _ _ _ H).
  - discriminate.
Qed.

Lemma flops_raise_trace_witness :
  snd (flops (Sequential [Flatten [28; 28]; Dense None (Some 100) ReLU;
                          Dense (Some 100) (Some 10) Softmax]) [])
  = Raise AttributeError
  /\ exists (xs : list layer) (iu ou : option Z) (act : activation)
            (ys : list layer),
       [Flatten [28; 28]; Dense None (Some 100) ReLU;
        Dense (Some 100) (Some 10) Softmax] = xs ++ Dense iu ou act :: ys
       /\ forallb sized xs = true
       /\ (iu = None \/ ou = None)
       /\ fst (flops (Sequential [Flatten [28; 28]; Dense None (Some 100) ReLU;
                                  Dense (Some 100) (Some 10) Softmax]) [])
          = [] ++ lines_of 0 xs ++ [LDense (List.length xs)]
       /\ (forall t : Z,
             ~ In (LTotal t)
                  (fst (flops (Sequential [Flatten [28; 28];
                                           Dense None (Some 100) ReLU;
                                           Dense (Some 100) (Some 10) Softmax])
                              []))).
Proof.
  split; [reflexivity |].
  apply (flops_raise_trace
           (Sequential [Flatten [28; 28]; Dense None (Some 100) ReLU;
                        Dense (Some 100) (Some 10) Softmax]) []
           AttributeError).
  reflexivity.
Defined.

(** ** Rearranging the layers *)

Lemma total_of_swap (x y : layer) (ls : list layer) (t : Z) :
  total_of (x :: y :: ls) = Ok t -> total_of (y :: x :: ls) = Ok t.
Proof.
  rewrite !total_of_cons.
  destruct (layer_flops x) as [c |], (layer_flops y) as [d |];
    try discriminate.
  rewrite !add_result_assoc. now rewrite Z.add_comm.
Qed.

Lemma total_of_Permutation (xs ys : list layer) :
  Permutation xs ys -> forall t : Z, total_of xs = Ok t -> total_of ys = Ok t.
Proof.
  induction 1 as [| x xs ys _ IH | x y ls | xs ys zs _ IH1 _ IH2]; intros t.
  - easy.
  - rewrite !total_of_cons. destruct (layer_flops x); [| discriminate].
    intros H. apply add_result_Ok in H as (t' & Ht' & ->).
    now rewrite (IH _ Ht').
  - apply total_of_swap.
  - intros H. apply IH2, IH1, H.
Qed.

Lemma has_units_Permutation (xs ys : list layer) :
  Permutation xs ys ->
  forallb has_units xs = true -> forallb has_units ys = true.
Proof.
  intros HP H. apply forallb_forall. intros l Hl.
  apply (proj1 (forallb_forall _ _) H).
  apply (Permutation_in _ (Permutation_sym HP) Hl).
Qed.

Lemma total_of_raise_has_units (ls : list layer) (e : exn) :
  forallb has_units ls = true -> total_of ls = Raise e -> e = AttributeError.
Proof.
  intros Hu He. apply (first_error_has_units ls); [exact Hu |].
  now apply total_of_first_error.
Qed.

(** Which exception ends the call can depend on the order, when one layer
    lacks its input shape and another has [None] for units. *)
Example exception_depends_on_order :
  snd (flops (Sequential [Dense None (Some 1) ActNone;
                          Dense (Some 1) None ActNone]) [])
  = Raise AttributeError
  /\ snd (flops (Sequential [Dense (Some 1) None ActNone;
                             Dense None (Some 1) ActNone]) [])
     = Raise TypeError.
Proof. split; reflexivity. Qed.

(** X3.  The outcome does not depend on the order of the layers: two models
    with the same layers in any order get the same total, or both raise;
    and when every layer has its units, as the layers Keras builds have, the
    two outcomes are equal, exception included. *)
Theorem total_order_independent (xs ys : list layer) (w : stdout) :
  Permutation xs ys ->
  (forall t : Z,
      snd (flops (Sequential xs) w) = Ok t
      <-> snd (flops (Sequential ys) w) = Ok t)
  /\ ((exists e : exn, snd (flops (Sequential xs) w) = Raise e)
      <-> (exists e : exn, snd (flops (Sequential ys) w) = Raise e))
  /\ (forallb has_units xs = true ->
      snd (flops (Sequential xs) w) = snd (flops (Sequential ys) w)).
Proof.
  intros HP. rewrite !flops_snd. cbn [layers].
  pose proof (total_of_Permutation _ _ HP) as Hxy.
  pose proof (total_of_Permutation _ _ (Permutation_sym HP)) as Hyx.
  assert (Hr : forall us vs : list layer,
             (forall t : Z, total_of vs = Ok t -> total_of us = Ok t) ->
             (exists e : exn, total_of us = Raise e) ->
             exists e : exn, total_of vs = Raise e).
  { intros us vs Hvu [e He].
    destruct (total_of vs) as [t |e'] eqn:Ev; [| now exists e'].
    rewrite (Hvu _ eq_refl) in He. discriminate. }
  split; [intros t; split; auto |].
  split; [split; apply Hr; assumption |].
  intros Hu. destruct (total_of xs) as [t | e] eqn:Ex.
  - symmetry. now apply Hxy.
  - assert (Hy : exists e' : exn, total_of ys = Raise e').
    { apply (Hr xs ys); [rewrite Ex; exact Hyx | exists e; exact Ex]. }
    destruct Hy as [e' Ey]. rewrite Ey.
    rewrite (total_of_raise_has_units _ _ Hu Ex).
    now rewrite (total_of_raise_has_units _ _
                   (has_units_Permutation _ _ HP Hu) Ey).
Qed.

Lemma total_order_independent_witness :
  (Permutation (layers scenario_A) (rev (layers scenario_A))
   /\ forallb has_units (layers scenario_A) = true)
  /\ snd (flops (Sequential (layers scenario_A)) []) =
     snd (flops (Sequential (rev (layers scenario_A))) []).
Proof.
  split; [split; [apply Permutation_rev | reflexivity] |].
  apply (proj2 (proj2 (total_order_independent (layers scenario_A)
                         (rev (layers scenario_A)) []
                         (Permutation_rev (layers scenario_A))))).
  reflexivity.
Defined.

Lemma total_of_filter_dense (ls : list layer) :
  total_of (filter is_dense ls) = total_of ls.
Proof.
  induction ls as [| l ls IH]; [reflexivity |].
  destruct l as [s | iu ou act | n]; cbn [filter is_dense];
    rewrite !total_of_cons, ?IH, ?layer_flops_Flatten, ?layer_flops_OtherLayer;
    try reflexivity; now rewrite add_result_0.
Qed.

(** X4.  Only the Dense layers count: the outcome on a model is the outcome on
    the model stripped of every layer that is not Dense. *)
Theorem total_only_dense (m : model) (w : stdout) :
  snd (flops m w) = snd (flops (Sequential (filter is_dense (layers m))) w).
Proof. rewrite !flops_snd. cbn [layers]. now rewrite total_of_filter_dense. Qed.

(** ** Smaller layers cost less *)

Lemma layer_flops_weight (a b : Z) (act : activation) :
  layer_flops (Dense (Some a) (Some b) act) =
  Ok (2 * a * b + act_weight act * b).
Proof.
  rewrite layer_flops_Dense. f_equal. destruct act; cbn [act_weight]; lia.
Qed.

Lemma layer_leb_flops (l l' : layer) :
  layer_leb l l' = true ->
  exists c c' : Z,
    layer_flops l = Ok c /\ layer_flops l' = Ok c' /\ 0 <= c <= c'.
Proof.
  destruct l as [s | [a |] [b |] f | n], l' as [s' | [a' |] [b' |] g | n'];
    try discriminate.
  - intros _. exists 0, 0. repeat split; lia.
  - cbn [layer_leb]. intros H.
    repeat (apply andb_prop in H as [H ?]).
    repeat match goal with
           | E : (_ <=? _) = true |- _ => apply Z.leb_le in E
           end.
    exists (2 * a * b + act_weight f * b), (2 * a' * b' + act_weight g * b').
    rewrite !layer_flops_weight. split; [reflexivity |].
    split; [reflexivity |].
    assert (0 <= act_weight f) by (destruct f; cbn; lia).
    split; nia.
  - intros _. exists 0, 0. repeat split; lia.
Qed.

Lemma total_of_monotone (xs ys : list layer) :
  Forall2 (fun l l' => layer_leb l l' = true) xs ys ->
  exists s t : Z, total_of xs = Ok s /\ total_of ys = Ok t /\ 0 <= s <= t.
Proof.
  induction 1 as [| l l' xs ys Hl _ IH].
  - exists 0, 0. repeat split; lia.
  - destruct IH as (s & t & Hs & Ht & Hst).
    destruct (layer_leb_flops _ _ Hl) as (c & c' & Hc & Hc' & Hcc).
    exists (c + s), (c' + t). rewrite !total_of_cons, Hc, Hc', Hs, Ht.
    repeat split; lia.
Qed.

(** X5.  Shrinking a model shrinks its estimate: when the layers of one model
    are, position by position, of the same kind as those of another, with
    Dense sizes that are present, not negative and not larger, and an
    activation that is not dearer, both calls return and the total of the
    first is between 0 and the total of the second. *)
Theorem total_monotone (xs ys : list layer) (w : stdout) :
  Forall2 (fun l l' => layer_leb l l' = true) xs ys ->
  exists s t : Z,
    snd (flops (Sequential xs) w) = Ok s
    /\ snd (flops (Sequential ys) w) = Ok t
    /\ 0 <= s <= t.
Proof. rewrite !flops_snd. apply total_of_monotone. Qed.

Lemma total_monotone_witness :
  Forall2 (fun l l' => layer_leb l l' = true)
          (layers scenario_B) (layers scenario_A)
  /\ exists s t : Z,
       snd (flops (Sequential (layers scenario_B)) []) = Ok s
       /\ snd (flops (Sequential (layers scenario_A)) []) = Ok t
       /\ 0 <= s <= t.
Proof.
  split; [repeat constructor |].
  apply (total_monotone (layers scenario_B) (layers scenario_A) []).
  repeat constructor.
Defined.

(** ** The trace of a concatenation *)

Lemma layer_lines_shift (k i : nat) (l : layer) :
  layer_lines (k + i) l = map (shift_line k) (layer_lines i l).
Proof.
  destruct l as [s | [a |] [b |] act | n]; try destruct act; reflexivity.
Qed.

Lemma lines_of_shift (ls : list layer) :
  forall k i : nat,
    lines_of (k + i) ls = map (shift_line k) (lines_of i ls).
Proof.
  induction ls as [| l ls IH]; intros k i; [reflexivity |].
  rewrite !lines_of_cons, map_app, layer_lines_shift. f_equal.
  destruct (layer_flops l); [| reflexivity].
  rewrite <- IH. now rewrite Nat.add_succ_r.
Qed.

(** X6.  The trace of [xs ++ ys] is the trace of [xs] followed by the trace of
    [ys] with every layer index raised by the length of [xs], and closed by
    the sum of the two totals: when the calls on [xs] and on [ys] return,
    the call on [xs ++ ys] returns and prints exactly that. *)
Theorem trace_of_concatenation (xs ys : list layer) (ox oy : stdout)
    (a b : Z) :
  flops (Sequential xs) [] = (ox ++ [LTotal a], Ok a) ->
  flops (Sequential ys) [] = (oy ++ [LTotal b], Ok b) ->
  flops (Sequential (xs ++ ys)) [] =
  (ox ++ map (shift_line (List.length xs)) oy ++ [LTotal (a + b)], Ok (a + b)).
Proof.
  rewrite !flops_eq. cbn [layers app].
  destruct (total_of xs) as [a' |] eqn:Ex; [| discriminate].
  destruct (total_of ys) as [b' |] eqn:Ey; [| discriminate].
  intros [= Hox <-] [= Hoy <-].
  apply app_inj_tail in Hox as [<- _]. apply app_inj_tail in Hoy as [<- _].
  rewrite total_of_app, Ex, Ey, lines_of_app, Ex. cbn [add_result].
  cbn [Nat.add]. rewrite <- (Nat.add_0_r (List.length xs)) at 1.
  now rewrite lines_of_shift, <- app_assoc.
Qed.

Lemma trace_of_concatenation_witness :
  (flops (Sequential [Dense (Some 4) (Some 2) ReLU]) [] =
     ([LDense 0; LUnits 4 2 16; LReLU 2] ++ [LTotal 18], Ok 18)
   /\ flops (Sequential [Flatten [3]; Dense (Some 2) (Some 3) Softmax]) [] =
        ([LFlatten 0; LDense 1; LUnits 2 3 12; LSoftmax 15] ++ [LTotal 27],
         Ok 27))
  /\ flops (Sequential ([Dense (Some 4) (Some 2) ReLU]
                        ++ [Flatten [3]; Dense (Some 2) (Some 3) Softmax])) [] =
     ([LDense 0; LUnits 4 2 16; LReLU 2]
      ++ map (shift_line (List.length [Dense (Some 4) (Some 2) ReLU]))
             [LFlatten 0; LDense 1; LUnits 2 3 12; LSoftmax 15]
      ++ [LTotal (18 + 27)], Ok (18 + 27)).
Proof.
  split; [split; reflexivity |].
  apply (trace_of_concatenation
           [Dense (Some 4) (Some 2) ReLU]
           [Flatten [3]; Dense (Some 2) (Some 3) Softmax]
           [LDense 0; LUnits 4 2 16; LReLU 2]
           [LFlatten 0; LDense 1; LUnits 2 3 12; LSoftmax 15] 18 27);
    reflexivity.
Defined.

(** ** The printed total *)

Lemma commas_rev_4 (a b c d : ascii) (rest : list ascii) :
  commas_rev (a :: b :: c :: d :: rest) =
  a :: b :: c :: ","%char :: commas_rev (d :: rest).
Proof. reflexivity. Qed.

(** Grouping only inserts commas. *)
Lemma commas_rev_filter (n : nat) :
  forall ds : list ascii,
    (List.length ds <= n)%nat ->
    filter not_comma (commas_rev ds) = filter not_comma ds.
Proof.
  induction n as [| n IH]; intros ds Hn.
  - destruct ds; [reflexivity | cbn in Hn; lia].
  - destruct ds as [| a [| b [| c [| d rest]]]]; try reflexivity.
    rewrite commas_rev_4.
    assert (Hr : filter not_comma (commas_rev (d :: rest)) =
                 filter not_comma (d :: rest))
      by (apply IH; cbn [List.length] in Hn |- *; lia).
    cbn [filter]. change (not_comma ","%char) with false. cbv iota.
    now rewrite Hr.
Qed.

Lemma digits_no_comma (d : Decimal.uint) :
  filter not_comma (list_ascii_of_string (NilEmpty.string_of_uint d)) =
  list_ascii_of_string (NilEmpty.string_of_uint d).
Proof.
  induction d; cbn [NilEmpty.string_of_uint list_ascii_of_string filter];
    [reflexivity | ..];
    match goal with
    | |- context [not_comma ?c] => change (not_comma c) with true
    end; cbv iota; now rewrite IHd.
Qed.

Lemma str_Z_abs_no_comma (z : Z) :
  filter not_comma (list_ascii_of_string (str_Z (Z.abs z))) =
  list_ascii_of_string (str_Z (Z.abs z)).
Proof.
  unfold str_Z.
  destruct z as [| p | p]; [reflexivity | |];
    cbn [Z.abs Z.to_int NilZero.string_of_int]; unfold NilZero.string_of_uint;
    destruct (Pos.to_uint p); try reflexivity; apply digits_no_comma.
Qed.

Lemma str_Z_neg (p : positive) :
  str_Z (Z.neg p) = String "-" (str_Z (Z.pos p)).
Proof. reflexivity. Qed.

Lemma Z_to_int_nonnil (z : Z) :
  Z.to_int z <> Decimal.Pos Decimal.Nil /\ Z.to_int z <> Decimal.Neg Decimal.Nil.
Proof.
  destruct z as [| p | p]; cbn [Z.to_int]; split; try discriminate;
    intros [= H]; exact (Unsigned.to_uint_nonnil p H).
Qed.

(** X7.  The total is printed as its decimal digits with commas put in: taking
    the commas out of [{total_flops:,}] leaves the plain decimal text of the
    number, sign included, and reading that text as an integer gives the
    number back, so the printed total determines the returned one. *)
Theorem printed_total_reads_back (z : Z) :
  strip_commas (str_Z_commas z) = str_Z z
  /\ option_map Z.of_int (NilZero.int_of_string (strip_commas (str_Z_commas z)))
     = Some z.
Proof.
  assert (E : strip_commas (str_Z_commas z) = str_Z z).
  { assert (G : forall y : Z,
               filter not_comma
                 (rev (commas_rev (rev (list_ascii_of_string (str_Z (Z.abs y))))))
               = list_ascii_of_string (str_Z (Z.abs y))).
    { intros y. rewrite filter_rev, (commas_rev_filter _ _ (Nat.le_refl _)).
      now rewrite <- filter_rev, rev_involutive, str_Z_abs_no_comma. }
    unfold strip_commas, str_Z_commas.
    destruct z as [| p | p].
    - reflexivity.
    - change (Z.pos p <? 0) with false. cbv iota zeta.
      rewrite list_ascii_of_string_of_list_ascii, G.
      apply string_of_list_ascii_of_string.
    - change (Z.neg p <? 0) with true. cbv iota zeta.
      change (Z.abs (Z.neg p)) with (Z.abs (Z.pos p)).
      cbn [append list_ascii_of_string filter].
      change (not_comma "-"%char) with true. cbv iota.
      rewrite list_ascii_of_string_of_list_ascii, G.
      cbn [string_of_list_ascii].
      rewrite string_of_list_ascii_of_string. symmetry. apply str_Z_neg. }
  split; [exact E |]. rewrite E. unfold str_Z.
  destruct (Z_to_int_nonnil z) as [Hp Hn].
  rewrite (NilZero.isi _ Hp Hn). cbn [option_map]. f_equal.
  apply DecimalZ.of_to.
Qed.

(** ** The training and validation split *)

Lemma combine_skipn {X Y : Type} (n : nat) :
  forall (l : list X) (l' : list Y),
    skipn n (combine l l') = combine (skipn n l) (skipn n l').
Proof.
  induction n as [| n IH]; intros l l'; [reflexivity |].
  destruct l as [| x l]; [reflexivity |].
  destruct l' as [| y l']; cbn [combine skipn].
  - now rewrite combine_nil.
  - apply IH.
Qed.

(** X8.  The split loses and repeats nothing and keeps rows and labels in step:
    the training part followed by the validation part is the data as it
    was, for the rows, for the labels and for the pairs of a row and its
    label.  The training part has the first 50000 rows and the validation
    part the rest; with 50000 + 10000 rows that is 50000 and 10000, and with
    at most 50000 rows the training part is everything and the validation
    part is empty. *)
Theorem train_val_split_partition {X Y : Type} (x : list X) (y : list Y) :
  let r := train_val_split x y in
  fst (fst r) ++ fst (snd r) = x
  /\ snd (fst r) ++ snd (snd r) = y
  /\ combine (fst (fst r)) (snd (fst r)) ++ combine (fst (snd r)) (snd (snd r))
     = combine x y
  /\ List.length (fst (fst r)) = Nat.min split_index (List.length x)
  /\ List.length (fst (snd r)) = (List.length x - split_index)%nat
  /\ (List.length x = (split_index + 10000)%nat ->
      List.length (fst (fst r)) = split_index
      /\ List.length (fst (snd r)) = 10000%nat)
  /\ ((List.length x <= split_index)%nat ->
      fst (fst r) = x /\ fst (snd r) = []).
Proof.
  unfold train_val_split. cbv zeta. cbn [fst snd].
  split; [apply firstn_skipn |]. split; [apply firstn_skipn |].
  split; [now rewrite <- combine_firstn, <- combine_skipn, firstn_skipn |].
  split; [apply length_firstn |]. split; [apply length_skipn |].
  split.
  - intros H. rewrite length_firstn, length_skipn, H. split.
    + apply Nat.min_l, Nat.le_add_r.
    + now rewrite Nat.add_comm, Nat.add_sub.
  - intros H. split; [now apply firstn_all2 | now apply skipn_all2].
Qed.

Lemma train_val_split_partition_witness :
  (List.length (repeat 0 (split_index + 10000)) = (split_index + 10000)%nat
   /\ (List.length (@nil Z) <= split_index)%nat)
  /\ (List.length
        (fst (fst (train_val_split (repeat 0 (split_index + 10000))
                                   (repeat 1 (split_index + 10000)))))
      = split_index
      /\ List.length
           (fst (snd (train_val_split (repeat 0 (split_index + 10000))
                                      (repeat 1 (split_index + 10000)))))
         = 10000%nat)
  /\ fst (fst (train_val_split (@nil Z) (@nil Z))) = []
  /\ fst (snd (train_val_split (@nil Z) (@nil Z))) = [].
Proof.
  split; [split; [apply repeat_length | apply Nat.le_0_l] |].
  destruct (train_val_split_partition (repeat 0 (split_index + 10000))
              (repeat 1 (split_index + 10000)))
    as (_ & _ & _ & _ & _ & Hfull & _).
  destruct (train_val_split_partition (@nil Z) (@nil Z))
    as (_ & _ & _ & _ & _ & _ & Hsmall).
  split.
  - apply Hfull. apply repeat_length.
  - apply Hsmall. apply Nat.le_0_l.
Defined.
